(** * A shallow embedding of the uefi-bootloader (Rust) and its properties

    Sources:
    - [src/uefi-bootloader/src/main.rs]: [main], [get_frame_buffer],
      [init_logger], [get_rsdp_address], the panic handler;
    - [src/uefi-bootloader/src/context.rs]: [BootContext] and its
      allocation, segment mapping and [exit_boot_services];
    - [src/src/lib.rs]: the earlier entry point (its halt loop).

    Machine words ([usize], [u64], [u32]) are [Z] with their range written
    out; a fatal [panic!] / [expect] failure is [None] (or [Panicked]) in
    the result; the firmware is a set of functions over an abstract
    firmware state, fixed by the Section variables. *)

From Stdlib Require Import ZArith Lia List String Bool.
From ITree Require Import ITree.
Import ListNotations.
Open Scope Z_scope.

(* ------------------------------------------------------------------ *)
(** ** Iterators over slices *)

(** [Iterator::find] on a slice iterator: it consumes elements up to and
    including the first match; the remaining iterator is returned with
    the result, so a later [find] on the same iterator resumes there. *)
Fixpoint iter_find {A} (p : A -> bool) (it : list A) : option A * list A :=
  match it with
  | [] => (None, [])
  | x :: rest => if p x then (Some x, rest) else iter_find p rest
  end.

(* ------------------------------------------------------------------ *)
(** ** The firmware configuration table and [get_rsdp_address] *)

(** [uefi::Guid], a 128-bit value. *)
Definition Guid := Z.

(** [uefi::table::cfg::ACPI2_GUID] = 8868e871-e4f1-11d3-bc22-0080c73c8881. *)
Definition ACPI2_GUID : Guid := 0x8868e871e4f111d3bc220080c73c8881.
(** [uefi::table::cfg::ACPI_GUID] = eb9d2d30-2d88-11d3-9a16-0090273fc14d. *)
Definition ACPI_GUID : Guid := 0xeb9d2d302d8811d39a160090273fc14d.

(** [uefi::table::cfg::ConfigTableEntry]. *)
Record ConfigTableEntry := mkConfigTableEntry {
  guid : Guid;
  address : Z;
}.

(** [matches!(entry.guid, C)] with a constant pattern [C] is equality. *)
Definition guid_matches (c : Guid) (entry : ConfigTableEntry) : bool :=
  Z.eqb (guid entry) c.

(** [get_rsdp_address] (main.rs 142-149): one iterator [config_entries]
    is shared by both searches; [or_else] runs the second search only when
    the first returned [None], on what the first left of the iterator. *)
Definition get_rsdp_address (config_table : list ConfigTableEntry) : option Z :=
  let config_entries := config_table in
  let (acpi2_rsdp, config_entries) := iter_find (guid_matches ACPI2_GUID) config_entries in
  let rsdp :=
    match acpi2_rsdp with
    | Some e => Some e
    | None => fst (iter_find (guid_matches ACPI_GUID) config_entries)
    end in
  option_map address rsdp.

(** The property stated by the spec: the first ACPI 2.x entry if there is
    one, else the first ACPI 1.x entry. *)
Definition rsdp_spec (config_table : list ConfigTableEntry) : option Z :=
  match find (guid_matches ACPI2_GUID) config_table with
  | Some e => Some (address e)
  | None => option_map address (find (guid_matches ACPI_GUID) config_table)
  end.

(* ------------------------------------------------------------------ *)
(** ** Framebuffer discovery, the logger and the start of [main] *)

Module gop.
(** [uefi::proto::console::gop::PixelFormat]. *)
Inductive PixelFormat := Rgb | Bgr | Bitmask | BltOnly.

(** [gop::ModeInfo], the parts [get_frame_buffer] reads. *)
Record ModeInfo := mkModeInfo {
  resolution : Z * Z;
  pixel_format : PixelFormat;
  stride : Z;
}.
End gop.

(** [uefi_bootloader_api::PixelFormat]. *)
Inductive PixelFormat := Rgb | Bgr.

(** [uefi_bootloader_api::FrameBufferInfo]. *)
Record FrameBufferInfo := mkFrameBufferInfo {
  size : Z;
  width : Z;
  height : Z;
  pixel_format : PixelFormat;
  bytes_per_pixel : Z;
  stride : Z;
}.

(** [uefi_bootloader_api::FrameBuffer]. *)
Record FrameBuffer := mkFrameBuffer {
  start : Z;
  info : FrameBufferInfo;
}.

(** What the firmware answers to the calls made at the start of [main]. *)
Record Firmware := mkFirmware {
  stdout_clear_ok : bool;                  (* [stdout().clear()] *)
  gop_handle : option Z;                   (* [get_handle_for_protocol] *)
  gop_open_ok : bool;                      (* [open_protocol_exclusive] *)
  gop_mode_info : gop.ModeInfo;            (* [current_mode_info] *)
  gop_frame_buffer : Z * Z;                (* [frame_buffer()]: pointer, size *)
  config_table : list ConfigTableEntry;    (* [config_table()] *)
  stdout_clear_err : string;               (* [{:?}] of the error [clear()] returns *)
}.

(** [log::LevelFilter]. *)
Inductive LevelFilter := Off | LError | LWarn | LInfo | LDebug | LTrace.

Definition level_rank (l : LevelFilter) : Z :=
  match l with Off => 0 | LError => 1 | LWarn => 2 | LInfo => 3 | LDebug => 4 | LTrace => 5 end.

(** The process-wide globals: [SYSTEM_TABLE], [logger::LOGGER] (a
    [spin::Once]) and the [log] crate's logger slot and maximum level. *)
Record Globals := mkGlobals {
  SYSTEM_TABLE : bool;
  LOGGER : option FrameBufferInfo;
  log_logger_set : bool;
  log_max_level : LevelFilter;
}.

(** The globals before [main] runs. *)
Definition globals0 : Globals := mkGlobals false None false Off.

(** Observable steps of [main], in program order. *)
Inductive Event :=
| EvStdoutClear
| EvGopLocate
| EvGopOpen
| EvLogWrite (msg : string)
| EvReadConfigTable
| EvBootContextNew
| EvLoadKernel.

Inductive Outcome (A : Type) :=
| Done (a : A)
| Panicked (msg : string).
Arguments Done {A} a.
Arguments Panicked {A} msg.

Record MainState := mkMainState {
  globals : Globals;
  trace : list Event;
}.

(** State and panic monad of [main]. *)
Definition MainM (A : Type) := MainState -> Outcome A * MainState.

Definition mret {A} (a : A) : MainM A := fun s => (Done a, s).
Definition mbind {A B} (m : MainM A) (k : A -> MainM B) : MainM B :=
  fun s => match m s with
           | (Done a, s') => k a s'
           | (Panicked msg, s') => (Panicked msg, s')
           end.
Definition mpanic {A} (msg : string) : MainM A := fun s => (Panicked msg, s).
Definition emit (e : Event) : MainM unit :=
  fun s => (Done tt, mkMainState (globals s) (trace s ++ [e])).
Definition set_globals (f : Globals -> Globals) : MainM unit :=
  fun s => (Done tt, mkMainState (f (globals s)) (trace s)).
Definition get_globals : MainM Globals := fun s => (Done (globals s), s).

Notation "'let!' x ':=' c 'in' k" := (mbind c (fun x => k))
  (at level 200, x name, c at level 100, k at level 200).
Notation "c ';;;' k" := (mbind c (fun _ => k)) (at level 100, right associativity).

(** [Result::expect]: on an error [err] it panics with [{msg}: {err:?}],
    [err_debug] being the [Debug] rendering of the error. *)
Definition mexpect (ok : bool) (err_debug msg : string) : MainM unit :=
  if ok then mret tt else mpanic (String.append msg (String.append ": " err_debug)).

(** [GraphicsOutput::frame_buffer] of the [uefi] crate: it asserts that
    the current mode is not Blt-only before handing out the pointer and
    size of the framebuffer. *)
Definition gop_frame_buffer_call (fw : Firmware) : MainM (Z * Z) :=
  match gop.pixel_format (gop_mode_info fw) with
  | gop.BltOnly => mpanic "Cannot access the framebuffer in a Blt-only mode"
  | _ => mret (gop_frame_buffer fw)
  end.

(** [get_frame_buffer] (main.rs 98-129). *)
Definition get_frame_buffer (fw : Firmware) : MainM (option FrameBuffer) :=
  emit EvGopLocate;;;
  match gop_handle fw with
  | None => mret None
  | Some _ =>
    emit EvGopOpen;;;
    if negb (gop_open_ok fw) then mret None else
    let mode_info := gop_mode_info fw in
    let! frame_buffer := gop_frame_buffer_call fw in
    let! pf :=
      match gop.pixel_format mode_info with
      | gop.Rgb => mret Rgb
      | gop.Bgr => mret Bgr
      | gop.Bitmask | gop.BltOnly =>
          mpanic "Bitmask and BltOnly framebuffers are not supported"
      end in
    let info := mkFrameBufferInfo (snd frame_buffer)
                  (fst (gop.resolution mode_info)) (snd (gop.resolution mode_info))
                  pf 4 (gop.stride mode_info) in
    mret (Some (mkFrameBuffer (fst frame_buffer) info))
  end.

(** [LOGGER.call_once]: initialises the [Once] if it is still empty. *)
Definition logger_call_once (i : FrameBufferInfo) : MainM unit :=
  set_globals (fun g =>
    match LOGGER g with
    | Some _ => g
    | None => mkGlobals (SYSTEM_TABLE g) (Some i) (log_logger_set g) (log_max_level g)
    end).

(** [log::set_logger(..).expect("logger already set")]. *)
Definition log_set_logger : MainM unit :=
  let! g := get_globals in
  if log_logger_set g then mpanic "logger already set"
  else set_globals (fun g => mkGlobals (SYSTEM_TABLE g) (LOGGER g) true (log_max_level g)).

Definition log_set_max_level (l : LevelFilter) : MainM unit :=
  set_globals (fun g => mkGlobals (SYSTEM_TABLE g) (LOGGER g) (log_logger_set g) l).

(** A [log] macro at level [l]: written by the installed logger when the
    level is enabled, dropped otherwise. *)
Definition log_at (l : LevelFilter) (msg : string) : MainM unit :=
  let! g := get_globals in
  if log_logger_set g && (level_rank l <=? level_rank (log_max_level g))
  then emit (EvLogWrite msg) else mret tt.

(** [init_logger] (main.rs 131-140). *)
Definition init_logger (frame_buffer : FrameBuffer) : MainM unit :=
  logger_call_once (info frame_buffer);;;
  log_set_logger;;;
  log_set_max_level LTrace.

Definition set_system_table (b : bool) : MainM unit :=
  set_globals (fun g => mkGlobals b (LOGGER g) (log_logger_set g) (log_max_level g)).

(** [main] (main.rs 40-62) up to the start of kernel loading; it returns
    the framebuffer and the RSDP address that the rest of [main] uses. *)
Definition main_prefix (fw : Firmware) : MainM (option FrameBuffer * option Z) :=
  set_system_table true;;;
  emit EvStdoutClear;;;
  mexpect (stdout_clear_ok fw) (stdout_clear_err fw) "failed to clear stdout";;;
  let! frame_buffer := get_frame_buffer fw in
  match frame_buffer with
  | Some fb => init_logger fb;;; log_at LInfo "using framebuffer"
  | None => mret tt
  end;;;
  set_system_table false;;;
  emit EvReadConfigTable;;;
  let rsdp_address := get_rsdp_address (config_table fw) in
  emit EvBootContextNew;;;
  emit EvLoadKernel;;;
  mret (frame_buffer, rsdp_address).

Definition main_state0 : MainState := mkMainState globals0 [].

(* ------------------------------------------------------------------ *)
(** ** Addresses, pages and frames *)

Definition WORD : Z := 2 ^ 64.
Definition PAGE_SIZE : Z := 4096.

(** Modelled from the spec: [VirtualAddress::new_canonical] (the memory
    module is not in the sources). Construction normalises to canonical
    form: the low 48 bits, sign-extended from bit 47. *)
Definition va_new_canonical (v : Z) : Z :=
  let low := Z.land v (2 ^ 48 - 1) in
  if Z.testbit v 47 then Z.lor low (WORD - 2 ^ 48) else low.

(** Modelled from the spec: [PhysicalAddress::new_canonical] (the memory
    module is not in the sources); a physical address is a machine word. *)
Definition pa_new_canonical (p : Z) : Z := p mod WORD.

(** Modelled from the spec: [impl Add<usize>] for the address types, "checked
    not to wrap past the representable range"; a wrap is fatal. *)
Definition addr_add (a off : Z) : option Z :=
  if a + off <? WORD then Some (a + off) else None.

(** Modelled from the spec: [impl Sub<usize>] for the address types, checked
    the same way against going below zero. *)
Definition addr_sub (a off : Z) : option Z :=
  if 0 <=? a - off then Some (a - off) else None.

(** [Page::containing_address] / [Frame::containing_address]: the number
    of the granule holding the address. *)
Definition containing_address (a : Z) : Z := a / PAGE_SIZE.

(** [PageRange::new(s, e).into_iter()] / [FrameRange]: the inclusive run
    [s ..= e], in increasing order; empty when [e < s]. *)
Definition inclusive_range (s e : Z) : list Z :=
  map (fun i => s + Z.of_nat i) (seq 0 (Z.to_nat (e - s + 1))).

(** Modelled from the spec: [util::calculate_pages] (not in the sources),
    the number of pages covering a byte count. *)
Definition calculate_pages (bytes : Z) : Z := (bytes + PAGE_SIZE - 1) / PAGE_SIZE.

(* ------------------------------------------------------------------ *)
(** ** ELF program headers and page-table flags *)

(** [goblin::elf64::program_header::ProgramHeader]. *)
Record ProgramHeader := mkProgramHeader {
  p_type : Z;
  p_flags : Z;     (* u32 *)
  p_offset : Z;
  p_vaddr : Z;
  p_paddr : Z;
  p_filesz : Z;
  p_memsz : Z;
  p_align : Z;
}.

(** Modelled from the spec: [PteFlags] (the memory module is not in the
    sources), the flag set {present, writable, no-execute}; [PteFlags::new]
    has none of them set. *)
Record PteFlags := mkPteFlags {
  present : bool;
  writable : bool;
  no_execute : bool;
}.

Definition PteFlags_new : PteFlags := mkPteFlags false false false.
Definition set_present (f : PteFlags) (b : bool) : PteFlags :=
  mkPteFlags b (writable f) (no_execute f).
Definition set_writable (f : PteFlags) (b : bool) : PteFlags :=
  mkPteFlags (present f) b (no_execute f).
Definition set_no_execute (f : PteFlags) (b : bool) : PteFlags :=
  mkPteFlags (present f) (writable f) b.

Definition PteFlags_eqb (a b : PteFlags) : bool :=
  Bool.eqb (present a) (present b) && Bool.eqb (writable a) (writable b)
  && Bool.eqb (no_execute a) (no_execute b).

(** The flag computation of [map_segment] (context.rs 136-146). *)
Definition segment_flags (segment : ProgramHeader) : PteFlags :=
  let flags := set_present PteFlags_new true in
  (* If the first bit isn't set *)
  let flags := if Z.land (p_flags segment) 1 =? 0 then set_no_execute flags true else flags in
  (* If the second bit is set *)
  let flags := if negb (Z.land (p_flags segment) 2 =? 0) then set_writable flags true else flags in
  flags.

(* ------------------------------------------------------------------ *)
(** ** Page allocator, mapper and frame allocator (memory module) *)

(** Modelled from the spec: [PageAllocator] (not in the sources), the
    ledger of claimed, pairwise disjoint inclusive page ranges. *)
Record PageAllocator := mkPageAllocator { used : list (Z * Z) }.

Definition PageAllocator_new : PageAllocator := mkPageAllocator [].

Definition ranges_overlap (a b : Z * Z) : bool :=
  (fst a <=? snd b) && (fst b <=? snd a).

(** Modelled from the spec: [PageAllocator::mark_segment_as_used] claims
    the pages implied by the segment's virtual address and memory size; a
    claim overlapping an earlier one is fatal. *)
Definition mark_segment_as_used (pa : PageAllocator) (segment : ProgramHeader)
  : option PageAllocator :=
  let v := va_new_canonical (p_vaddr segment) in
  let r := (containing_address v, containing_address (v + p_memsz segment - 1)) in
  if existsb (ranges_overlap r) (used pa) then None
  else Some (mkPageAllocator (r :: used pa)).

(** Modelled from the spec: [Mapper] (not in the sources), its root table
    frame and its leaf mappings (page, frame, flags). Intermediate tables
    are not modelled: no claim here is about them. *)
Record Mapper := mkMapper {
  root : Z;
  entries : list (Z * Z * PteFlags);
}.

Definition entry_page (e : Z * Z * PteFlags) : Z := fst (fst e).
Definition entry_flags (e : Z * Z * PteFlags) : PteFlags := snd e.

(** Modelled from the spec: [Mapper::map] installs the leaf mapping;
    re-mapping a present page with different flags is fatal. The frames it
    takes from the supplied allocator for intermediate tables, and the
    fatal out-of-memory path there, are not modelled: the properties
    below are about runs where every mapping succeeds. *)
Definition mapper_map (m : Mapper) (page frame : Z) (flags : PteFlags) : option Mapper :=
  match find (fun e => entry_page e =? page) (entries m) with
  | Some e =>
      if PteFlags_eqb (entry_flags e) flags
      then Some (mkMapper (root m)
                  ((page, frame, flags) :: filter (fun e => negb (entry_page e =? page)) (entries m)))
      else None
  | None => Some (mkMapper (root m) ((page, frame, flags) :: entries m))
  end.

(** The [for (page, frame) in pages.zip(frames)] loop of [map_segment]. *)
Fixpoint map_all (m : Mapper) (pfs : list (Z * Z)) (flags : PteFlags) : option Mapper :=
  match pfs with
  | [] => Some m
  | (page, frame) :: rest =>
      match mapper_map m page frame flags with
      | Some m' => map_all m' rest flags
      | None => None
      end
  end.

(** [uefi::table::boot::MemoryDescriptor]. *)
Record MemoryDescriptor := mkMemoryDescriptor {
  ty : Z;
  phys_start : Z;
  virt_start : Z;
  page_count : Z;
  att : Z;
}.

(** Modelled from the spec: [LegacyFrameAllocator] (the static-map frame
    allocator, not in the sources): the memory-map snapshot and a cursor
    that starts at the beginning. *)
Record LegacyFrameAllocator := mkLegacyFrameAllocator {
  memory_map : list MemoryDescriptor;
  cursor : Z;
}.

Definition LegacyFrameAllocator_new (mm : list MemoryDescriptor) : LegacyFrameAllocator :=
  mkLegacyFrameAllocator mm 0.

(* ------------------------------------------------------------------ *)
(** ** Firmware memory services *)

(** [uefi::table::boot::AllocateType]. *)
Inductive AllocateType :=
| AnyPages
| MaxAddress (a : Z)
| Address (a : Z).

(** [uefi::table::boot::MemoryType], a [u32] newtype. *)
Definition MemoryType := Z.
Definition LOADER_DATA : MemoryType := 2.

(** [uefi::table::boot::MemoryMapSize]. *)
Record MemoryMapSize := mkMemoryMapSize {
  entry_size : Z;
  map_size : Z;
}.

(** A byte slice: its first address and its length in elements. *)
Record Slice := mkSlice {
  ptr : Z;
  len : Z;
}.

(** [core::ptr::write_bytes(p, v, count)] on bytes: [count] bytes from [p]. *)
Definition write_bytes (ram : Z -> Z) (p v count : Z) : Z -> Z :=
  fun a => if (p <=? a) && (a <? p + count) then v else ram a.

(** The bytes of [ram] read through a slice of [n] bytes at [p]. *)
Definition read_bytes (ram : Z -> Z) (p n : Z) : list Z :=
  map (fun i => ram (p + Z.of_nat i)) (seq 0 (Z.to_nat n)).

(* ------------------------------------------------------------------ *)
(** ** The boot context (context.rs) *)

Section Boot.

(** The firmware behind [SystemTable<Boot>]: its state, [allocate_pages],
    [memory_map_size], the memory map [GetMemoryMap] would write now, and
    the kernel's memory type [KERNEL_MEMORY] of the memory module. *)
Variable FwState : Type.
Variable fw_allocate_pages : FwState -> AllocateType -> MemoryType -> Z -> option (Z * FwState).
Variable fw_memory_map_size : FwState -> MemoryMapSize.
Variable fw_memory_map : FwState -> list MemoryDescriptor.
Variable KERNEL_MEMORY : MemoryType.

(** Physical memory (one byte per address) and the firmware. *)
Record Machine := mkMachine {
  ram : Z -> Z;
  fw : FwState;
}.

(** State and panic monad of the boot phase: [None] is a panic. *)
Definition BootM (A : Type) := Machine -> option (A * Machine).

Definition bret {A} (a : A) : BootM A := fun m => Some (a, m).
Definition bbind {A B} (c : BootM A) (k : A -> BootM B) : BootM B :=
  fun m => match c m with Some (a, m') => k a m' | None => None end.
Definition blift {A} (o : option A) : BootM A :=
  fun m => match o with Some a => Some (a, m) | None => None end.

Local Notation "'let?' x ':=' c 'in' k" := (bbind c (fun x => k))
  (at level 200, x name, c at level 100, k at level 200).

(** [BootContext]. *)
Record BootContext := mkBootContext {
  image_handle : Z;
  system_table : Z;
  page_allocator : PageAllocator;
  mapper : Mapper;
}.

(** [RuntimeContext]. *)
Record RuntimeContext := mkRuntimeContext {
  rt_page_allocator : PageAllocator;
  rt_frame_allocator : LegacyFrameAllocator;
  rt_mapper : Mapper;
}.

(** [BootContext::allocate_slice_inner::<T>] (context.rs 69-88), with
    [elem_size] = [size_of::<T>()]. [write_bytes] on a
    [*mut MaybeUninit<T>] writes [len] elements, [len * elem_size] bytes.
    The product is taken in [Z]: it is Rust's [usize] product as long as
    it stays below 2^64, which it always does for byte slices. *)
Definition allocate_slice_inner (elem_size : Z) (self : BootContext) (len : Z)
    (allocate_type : AllocateType) (memory_type : MemoryType) : BootM Slice :=
  fun m =>
    let bytes_len := elem_size * len in
    let num_pages := calculate_pages bytes_len in
    match fw_allocate_pages (fw m) allocate_type memory_type num_pages with
    | None => None  (* expect("failed to allocate pages for slice") *)
    | Some (pointer, fw') =>
        Some (mkSlice pointer len,
              mkMachine (write_bytes (ram m) pointer 0 (len * elem_size)) fw')
    end.

(** [BootContext::allocate_slice::<T>]. *)
Definition allocate_slice (elem_size : Z) (self : BootContext) (len : Z)
    (memory_type : MemoryType) : BootM Slice :=
  allocate_slice_inner elem_size self len AnyPages memory_type.

(** [BootContext::allocate_byte_slice]: [T = u8]. *)
Definition allocate_byte_slice (self : BootContext) (len : Z) (ty : MemoryType) : BootM Slice :=
  allocate_slice 1 self len ty.

(** [virtual_start + segment.p_memsz as usize - 1] and its physical twin. *)
Definition end_inclusive (start memsz : Z) : option Z :=
  match addr_add start memsz with
  | Some x => addr_sub x 1
  | None => None
  end.

(** The allocation of [map_segment] (context.rs 105-116). *)
Definition segment_slice (self : BootContext) (segment : ProgramHeader) : BootM Slice :=
  (* x86_64 .init section *)
  if p_paddr segment =? 0x10_0000 then
    allocate_slice_inner 1 self (p_memsz segment) (Address 0x10_0000) KERNEL_MEMORY
  else allocate_byte_slice self (p_memsz segment) KERNEL_MEMORY.

(** [BootContext::map_segment] (context.rs 104-160). *)
Definition map_segment (self : BootContext) (segment : ProgramHeader)
  : BootM (Slice * BootContext) :=
  let? slice := segment_slice self segment in
  let? page_allocator' := blift (mark_segment_as_used (page_allocator self) segment) in
  let virtual_start := va_new_canonical (p_vaddr segment) in
  let? virtual_end_inclusive := blift (end_inclusive virtual_start (p_memsz segment)) in
  let physical_start := pa_new_canonical (ptr slice) in
  let? physical_end_inclusive := blift (end_inclusive physical_start (p_memsz segment)) in
  let pages := inclusive_range (containing_address virtual_start)
                               (containing_address virtual_end_inclusive) in
  let frames := inclusive_range (containing_address physical_start)
                                (containing_address physical_end_inclusive) in
  let flags := segment_flags segment in
  let? mapper' := blift (map_all (mapper self) (combine pages frames) flags) in
  bret (slice, mkBootContext (image_handle self) (system_table self) page_allocator' mapper').

(** [SystemTable::exit_boot_services(image, buf)] of the [uefi] crate:
    it fetches the memory map into [buf] and propagates the firmware's
    BUFFER_TOO_SMALL when the map does not fit, then exits boot services;
    the descriptors written are the snapshot it hands back. *)
Definition uefi_exit_boot_services (entry_sz : Z) (storage : Slice)
  : BootM (list MemoryDescriptor) :=
  fun m =>
    let memory_map := fw_memory_map (fw m) in
    if Z.of_nat (List.length memory_map) * entry_sz <=? len storage
    then Some (memory_map, m) else None.

(** [BootContext::exit_boot_services] (context.rs 162-182). *)
Definition exit_boot_services (self : BootContext) : BootM RuntimeContext :=
  fun m =>
    let mms := fw_memory_map_size (fw m) in
    let predicted_map_size := map_size mms + 4 * entry_size mms in
    (let? memory_map_storage := allocate_byte_slice self predicted_map_size LOADER_DATA in
     (* expect("failed to exit boot services") *)
     let? memory_map := uefi_exit_boot_services (entry_size mms) memory_map_storage in
     bret (mkRuntimeContext (page_allocator self)
             (LegacyFrameAllocator_new memory_map) (mapper self))) m.

End Boot.

(* ------------------------------------------------------------------ *)
(** ** The panic handler (main.rs 160-176) *)

Module PanicHandler.

(** What the handler does to the machine. *)
Variant PanicE : Type -> Type :=
| ConsoleWriteln (msg : string) : PanicE unit   (* writeln!(system_table.stdout(), ..) *)
| LoggerForceUnlock : PanicE unit              (* logger.force_unlock() *)
| LoggerWrite (msg : string) : PanicE unit     (* the framebuffer logger writes *)
| Cli : PanicE unit
| Hlt : PanicE unit.

(** Modelled from the spec: [arch::halt] (the arch module is not in the
    sources) halts the processor in an idle loop; written as the loop of
    the panic handler of src/src/lib.rs: [loop { asm!("cli", "hlt") }]. *)
Definition halt : itree PanicE void :=
  ITree.forever (ITree.bind (ITree.trigger Cli) (fun _ => ITree.trigger Hlt)).

(** [error!("{info}")]: the installed logger writes when [Error] is enabled. *)
Definition log_error (g : Globals) (msg : string) : itree PanicE unit :=
  if log_logger_set g && (level_rank LError <=? level_rank (log_max_level g))
  then ITree.trigger (LoggerWrite msg) else Ret tt.

(** [panic]: its Rust type [-> !] is the result type [void]. *)
Definition panic (g : Globals) (info : string) : itree PanicE void :=
  ITree.bind (if SYSTEM_TABLE g then ITree.trigger (ConsoleWriteln info) else Ret tt) (fun _ =>
  ITree.bind (match LOGGER g with
              | Some _ => ITree.trigger LoggerForceUnlock
              | None => Ret tt
              end) (fun _ =>
  ITree.bind (log_error g info) (fun _ =>
  halt))).

(** Observable labels of the events. *)
Inductive Label := LConsole (msg : string) | LUnlock | LLog (msg : string) | LCli | LHlt.

Definition label_of {X} (e : PanicE X) : Label * X :=
  match e in PanicE X return Label * X with
  | ConsoleWriteln msg => (LConsole msg, tt)
  | LoggerForceUnlock => (LUnlock, tt)
  | LoggerWrite msg => (LLog msg, tt)
  | Cli => (LCli, tt)
  | Hlt => (LHlt, tt)
  end.

(** The events a tree performs within [n] steps (each [Tau] or event is
    one step). A [void] tree has no [Ret] to reach. *)
Fixpoint trace_n (n : nat) (t : itree PanicE void) : list Label :=
  match n with
  | O => []
  | S n' =>
      match observe t with
      | RetF v => match v with end
      | TauF t' => trace_n n' t'
      | VisF e k => let (l, x) := label_of e in l :: trace_n n' (k x)
      end
  end.

Fixpoint halt_labels (n : nat) : list Label :=
  match n with O => [] | S n' => LCli :: LHlt :: halt_labels n' end.

End PanicHandler.

Arguments mkMachine {FwState} ram fw.
Arguments ram {FwState} m _.
Arguments fw {FwState} m.
Arguments bret {FwState A} a _.
Arguments bbind {FwState A B} c k _.
Arguments blift {FwState A} o _.
Arguments allocate_slice_inner {FwState} fw_allocate_pages elem_size self len allocate_type memory_type _.
Arguments allocate_slice {FwState} fw_allocate_pages elem_size self len memory_type _.
Arguments allocate_byte_slice {FwState} fw_allocate_pages self len ty _.
Arguments segment_slice {FwState} fw_allocate_pages KERNEL_MEMORY self segment _.
Arguments map_segment {FwState} fw_allocate_pages KERNEL_MEMORY self segment _.
Arguments uefi_exit_boot_services {FwState} fw_memory_map entry_sz storage _.
Arguments exit_boot_services {FwState} fw_allocate_pages fw_memory_map_size fw_memory_map self _.

(** The globals as [main] leaves them: [init_logger] fills [LOGGER],
    installs the [log] logger and sets the level together. *)
Definition globals_wf (g : Globals) : Prop :=
  (LOGGER g = None <-> log_logger_set g = false) /\
  (log_logger_set g = true -> log_max_level g = LTrace).

(* ------------------------------------------------------------------ *)
(** ** A concrete firmware, for the examples *)

(** A bump allocator that adds [growth_per_alloc] descriptors to the
    memory map at every allocation; 64-byte descriptors. *)
Record ToyFw := mkToyFw {
  next_free : Z;
  map_entries : Z;
  growth_per_alloc : Z;
}.

Definition toy_allocate_pages (s : ToyFw) (at_ : AllocateType) (_ : MemoryType) (n : Z)
  : option (Z * ToyFw) :=
  let grown a := mkToyFw a (map_entries s + growth_per_alloc s) (growth_per_alloc s) in
  match at_ with
  | AnyPages => Some (next_free s, grown (next_free s + n * PAGE_SIZE))
  | MaxAddress a =>
      if next_free s + n * PAGE_SIZE <=? a
      then Some (next_free s, grown (next_free s + n * PAGE_SIZE)) else None
  | Address a => Some (a, grown (next_free s))
  end.

Definition toy_memory_map_size (s : ToyFw) : MemoryMapSize :=
  mkMemoryMapSize 64 (64 * map_entries s).

Definition toy_descriptor : MemoryDescriptor := mkMemoryDescriptor 7 0 0 1 0.

Definition toy_memory_map (s : ToyFw) : list MemoryDescriptor :=
  repeat toy_descriptor (Z.to_nat (map_entries s)).

Definition TOY_KERNEL_MEMORY : MemoryType := 0x80000000.

Definition toy_ram : Z -> Z := fun _ => 0xAA.

Definition toy_ctx : BootContext := mkBootContext 1 2 PageAllocator_new (mkMapper 0 []).

(** An R-X segment at 0x200000 of 0x1000 bytes, 0x800 of them in the file. *)
Definition text_segment : ProgramHeader :=
  mkProgramHeader 1 5 0x1000 0x200000 0x200000 0x800 0x1000 0x1000.

(** The x86_64 .init segment, loaded at physical 0x100000. *)
Definition init_segment : ProgramHeader :=
  mkProgramHeader 1 7 0x3000 0x100000 0x100000 0x100 0x100 0x1000.


(** A 4096-byte map of 64-byte descriptors, growing by [g] entries. *)
Definition toy_machine (g : Z) : Machine ToyFw :=
  mkMachine toy_ram (mkToyFw 0x200000 64 g).

(** No page occurs twice in a list of (page, frame) pairs. *)
Fixpoint distinct_pages (pfs : list (Z * Z)) : Prop :=
  match pfs with
  | [] => True
  | (p, _) :: rest => (forall q, In q rest -> fst q <> p) /\ distinct_pages rest
  end.

(** The number of granules from the one holding [start] to the one
    holding [start + memsz - 1], as [PageRange::new] counts them. *)
Definition span_pages (start memsz : Z) : Z :=
  containing_address (start + memsz - 1) - containing_address start + 1.

(** A data segment whose virtual address is not page aligned: 0x1000
    bytes from 0x200800 straddle two pages. *)
Definition unaligned_segment : ProgramHeader :=
  mkProgramHeader 1 6 0x2000 0x200800 0x200800 0x1000 0x1000 0x1000.


(* ================================================================== *)
(** * Properties *)

(* ------------------------------------------------------------------ *)
(** ** The RSDP lookup *)

Lemma iter_find_fst {A} (p : A -> bool) (l : list A) :
  fst (iter_find p l) = find p l.
Proof.
  induction l as [|x l IH]; simpl; [reflexivity|].
  destruct (p x); simpl; auto.
Qed.

Lemma iter_find_exhausted {A} (p : A -> bool) (l : list A) :
  fst (iter_find p l) = None -> snd (iter_find p l) = [].
Proof.
  induction l as [|x l IH]; simpl; [reflexivity|].
  destruct (p x); simpl; [discriminate | exact IH].
Qed.

(** Whatever the table holds, the result is the first ACPI 2.x entry's
    address or nothing: the ACPI 1.x search runs on an exhausted iterator. *)
Lemma get_rsdp_address_only_acpi2 (config_table : list ConfigTableEntry) :
  get_rsdp_address config_table
  = option_map address (find (guid_matches ACPI2_GUID) config_table).
Proof.
  unfold get_rsdp_address.
  pose proof (iter_find_fst (guid_matches ACPI2_GUID) config_table) as Hf.
  pose proof (iter_find_exhausted (guid_matches ACPI2_GUID) config_table) as Hr.
  destruct (iter_find (guid_matches ACPI2_GUID) config_table) as [[e|] rest];
    simpl in *; rewrite <- Hf; [reflexivity|].
  rewrite Hr by reflexivity. reflexivity.
Qed.

(** C2: a table holding only an ACPI 1.x entry (at 0xE0000): the spec's
    lookup gives that entry's address, [get_rsdp_address] gives [None]. *)
Theorem get_rsdp_address_acpi1_only :
  rsdp_spec [mkConfigTableEntry ACPI_GUID 0xE0000] = Some 0xE0000 /\
  get_rsdp_address [mkConfigTableEntry ACPI_GUID 0xE0000] = None.
Proof. split; reflexivity. Qed.

(* ------------------------------------------------------------------ *)
(** ** Framebuffer discovery and the start of [main] *)

(** C9: a framebuffer that [get_frame_buffer] reports has 4 bytes per
    pixel and an RGB or BGR pixel format. *)
Theorem get_frame_buffer_bpp_format (fw : Firmware) (s s' : MainState) (fb : FrameBuffer) :
  get_frame_buffer fw s = (Done (Some fb), s') ->
  bytes_per_pixel (info fb) = 4 /\
  (pixel_format (info fb) = Rgb \/ pixel_format (info fb) = Bgr).
Proof.
  unfold get_frame_buffer, gop_frame_buffer_call, mbind, emit, mret, mpanic.
  destruct (gop_handle fw); [|discriminate].
  destruct (gop_open_ok fw); simpl; [|discriminate].
  destruct (gop.pixel_format (gop_mode_info fw)); simpl; intros H; inversion H; subst;
    simpl; auto.
Qed.

(** C7: with the console cleared and a GOP found and opened whose pixel
    format is Bitmask or BltOnly, [main] panics inside [get_frame_buffer]
    (for BltOnly already at the [uefi] crate's assertion in
    [gop.frame_buffer()], for Bitmask at the match) with the logger
    untouched and no kernel-loading step taken. *)
Theorem main_unsupported_pixel_format_fatal (fw : Firmware) :
  stdout_clear_ok fw = true ->
  gop_handle fw <> None ->
  gop_open_ok fw = true ->
  (gop.pixel_format (gop_mode_info fw) = gop.Bitmask \/
   gop.pixel_format (gop_mode_info fw) = gop.BltOnly) ->
  exists msg,
  main_prefix fw main_state0
  = (Panicked msg,
     mkMainState (mkGlobals true None false Off) [EvStdoutClear; EvGopLocate; EvGopOpen]).
Proof.
  intros Hclear Hgop Hopen Hpf.
  unfold main_prefix, get_frame_buffer, gop_frame_buffer_call, set_system_table, set_globals,
    mexpect, mbind, emit, mret, mpanic; simpl.
  rewrite Hclear; simpl.
  destruct (gop_handle fw) as [h|]; [|congruence].
  rewrite Hopen; simpl.
  destruct Hpf as [Hpf|Hpf]; rewrite Hpf; eexists; reflexivity.
Qed.

(** Every state [main] reaches, panicking or not, keeps [LOGGER], the
    [log] logger and the level in step. *)
Lemma main_prefix_globals_wf (fw : Firmware) :
  globals_wf (globals (snd (main_prefix fw main_state0))).
Proof.
  unfold main_prefix, get_frame_buffer, gop_frame_buffer_call, init_logger, logger_call_once, log_set_logger,
    log_set_max_level, log_at, set_system_table, set_globals, get_globals, mexpect,
    mbind, emit, mret, mpanic; simpl.
  unfold globals_wf.
  destruct (stdout_clear_ok fw); simpl;
    [| split; [split; reflexivity | discriminate]].
  destruct (gop_handle fw); simpl; [| split; [split; reflexivity | discriminate]].
  destruct (gop_open_ok fw); simpl; [| split; [split; reflexivity | discriminate]].
  destruct (gop.pixel_format (gop_mode_info fw)); simpl;
    try (split; [split; reflexivity | discriminate]);
    split; try reflexivity; split; discriminate.
Qed.

(* ------------------------------------------------------------------ *)
(** ** The panic handler *)

Module PanicHandlerFacts.
Import PanicHandler.

Lemma halt_step (n : nat) :
  trace_n (3 + n) halt = LCli :: LHlt :: trace_n n halt.
Proof. reflexivity. Qed.

(** The idle loop: three steps per [cli; hlt] round, for ever. *)
Lemma halt_trace (n : nat) : trace_n (3 * n) halt = halt_labels n.
Proof.
  induction n as [|n IH]; [reflexivity|].
  replace (3 * S n)%nat with (3 + 3 * n)%nat by lia.
  rewrite halt_step, IH. reflexivity.
Qed.

(** [trace_n] looks at a tree only through [observe]. *)
Lemma trace_n_observe (n : nat) (t t' : itree PanicE void) :
  observe t = observe t' -> trace_n n t = trace_n n t'.
Proof. destruct n; simpl; [reflexivity|]. intros H. rewrite H. reflexivity. Qed.

Lemma halt_trace_observe (n : nat) (t : itree PanicE void) :
  observe t = observe halt -> trace_n (3 * n) t = halt_labels n.
Proof. intros H. rewrite (trace_n_observe _ t halt H). apply halt_trace. Qed.

(** The handler's trace, for a well-formed [Globals]. *)
Lemma panic_trace (g : Globals) (info : string) (n : nat) :
  globals_wf g ->
  let diag := (if SYSTEM_TABLE g then [LConsole info] else [])
              ++ match LOGGER g with
                 | Some _ => [LUnlock; LLog info]
                 | None => []
                 end in
  trace_n (List.length diag + 3 * n) (panic g info) = diag ++ halt_labels n.
Proof.
  intros [Hlog Hlvl] diag. subst diag.
  destruct g as [st lg set lvl]; simpl in *.
  destruct lg as [fbi|].
  - assert (Hs : set = true).
    { destruct set; [reflexivity|]. exfalso. pose proof (proj2 Hlog eq_refl). discriminate. }
    subst set. rewrite (Hlvl eq_refl).
    destruct st; simpl; repeat f_equal; apply halt_trace_observe; reflexivity.
  - rewrite (proj1 Hlog eq_refl).
    destruct st; simpl; repeat f_equal; apply halt_trace_observe; reflexivity.
Qed.


(** C8: on a panic the handler writes the message to the console when the
    [SYSTEM_TABLE] slot is set, unlocks the framebuffer logger and writes
    the message there when [LOGGER] is initialised, then runs [cli; hlt]
    for ever: its first [length diag + 3 n] steps are exactly these
    writes and [n] rounds of the loop, for every [n]; being of type [void]
    it has no return. *)
Theorem panic_writes_then_halts (g : Globals) (info : string) (n : nat) :
  globals_wf g ->
  let diag := (if SYSTEM_TABLE g then [LConsole info] else [])
              ++ match LOGGER g with
                 | Some _ => [LUnlock; LLog info]
                 | None => []
                 end in
  trace_n (List.length diag + 3 * n) (panic g info) = diag ++ halt_labels n.
Proof. exact (panic_trace g info n).
Qed.

End PanicHandlerFacts.

(* ------------------------------------------------------------------ *)
(** ** Segment mapping *)

Lemma mapper_map_entries (m m' : Mapper) (page frame : Z) (flags : PteFlags) :
  mapper_map m page frame flags = Some m' ->
  forall e, In e (entries m') -> In e (entries m) \/ entry_flags e = flags.
Proof.
  unfold mapper_map.
  destruct (find (fun e => entry_page e =? page) (entries m)) as [old|].
  - destruct (PteFlags_eqb (entry_flags old) flags); [|discriminate].
    intros H; inversion H; subst; clear H; simpl.
    intros e [<- | Hin]; [right; reflexivity|].
    left. apply filter_In in Hin. tauto.
  - intros H; inversion H; subst; clear H; simpl.
    intros e [<- | Hin]; [right; reflexivity | left; exact Hin].
Qed.

Lemma map_all_entries (pfs : list (Z * Z)) :
  forall (m m' : Mapper) (flags : PteFlags),
  map_all m pfs flags = Some m' ->
  forall e, In e (entries m') -> In e (entries m) \/ entry_flags e = flags.
Proof.
  induction pfs as [|[page frame] rest IH]; simpl; intros m m' flags H e Hin.
  - inversion H; subst; left; exact Hin.
  - destruct (mapper_map m page frame flags) as [m1|] eqn:Hm; [|discriminate].
    destruct (IH m1 m' flags H e Hin) as [H1|H1]; [|right; exact H1].
    exact (mapper_map_entries m m1 page frame flags Hm e H1).
Qed.

Lemma segment_flags_bits (segment : ProgramHeader) :
  present (segment_flags segment) = true /\
  no_execute (segment_flags segment) = (Z.land (p_flags segment) 1 =? 0) /\
  writable (segment_flags segment) = negb (Z.land (p_flags segment) 2 =? 0).
Proof.
  unfold segment_flags.
  destruct (Z.land (p_flags segment) 1 =? 0), (Z.land (p_flags segment) 2 =? 0);
    simpl; auto.
Qed.

Lemma read_bytes_written_zero (r : Z -> Z) (p n : Z) :
  read_bytes (write_bytes r p 0 (n * 1)) p n = repeat 0 (Z.to_nat n).
Proof.
  unfold read_bytes, write_bytes.
  rewrite <- (length_seq (Z.to_nat n) 0) at 2.
  rewrite <- map_const.
  apply map_ext_in. intros i Hi. apply in_seq in Hi.
  assert (Hlt : (p <=? p + Z.of_nat i) && (p + Z.of_nat i <? p + n * 1) = true).
  { apply andb_true_intro; split; [apply Z.leb_le | apply Z.ltb_lt]; lia. }
  rewrite Hlt. reflexivity.
Qed.

Section BootFacts.

Variable FwState : Type.
Variable fw_allocate_pages : FwState -> AllocateType -> MemoryType -> Z -> option (Z * FwState).
Variable fw_memory_map_size : FwState -> MemoryMapSize.
Variable fw_memory_map : FwState -> list MemoryDescriptor.
Variable KERNEL_MEMORY : MemoryType.

(** How [map_segment] succeeds: the allocation, the claim, both end
    addresses and every mapping succeed, in this order. *)
Lemma map_segment_inv (self : BootContext) (segment : ProgramHeader) (m m' : Machine FwState)
    (s : Slice) (self' : BootContext) :
  map_segment fw_allocate_pages KERNEL_MEMORY self segment m = Some ((s, self'), m') ->
  exists pa' ve pe mapper',
    segment_slice fw_allocate_pages KERNEL_MEMORY self segment m = Some (s, m') /\
    mark_segment_as_used (page_allocator self) segment = Some pa' /\
    end_inclusive (va_new_canonical (p_vaddr segment)) (p_memsz segment) = Some ve /\
    end_inclusive (pa_new_canonical (ptr s)) (p_memsz segment) = Some pe /\
    map_all (mapper self)
      (combine (inclusive_range (containing_address (va_new_canonical (p_vaddr segment)))
                                (containing_address ve))
               (inclusive_range (containing_address (pa_new_canonical (ptr s)))
                                (containing_address pe)))
      (segment_flags segment) = Some mapper' /\
    self' = mkBootContext (image_handle self) (system_table self) pa' mapper'.
Proof.
  unfold map_segment, bbind, blift, bret.
  destruct (segment_slice fw_allocate_pages KERNEL_MEMORY self segment m) as [[s0 m0]|];
    [|discriminate].
  destruct (mark_segment_as_used (page_allocator self) segment) as [pa'|] eqn:Hpa;
    [|discriminate].
  destruct (end_inclusive (va_new_canonical (p_vaddr segment)) (p_memsz segment)) as [ve|]
    eqn:Hve; [|discriminate].
  destruct (end_inclusive (pa_new_canonical (ptr s0)) (p_memsz segment)) as [pe|] eqn:Hpe;
    [|discriminate].
  match goal with |- context [map_all ?a ?b ?c] => destruct (map_all a b c) as [mp|] eqn:Hmap end;
    [|discriminate].
  intros H; inversion H; subst.
  exists pa', ve, pe, mp. repeat split; auto.
Qed.

(** C3: every mapping [map_segment] installs carries the segment's flags:
    present, no-execute exactly when bit 0 of [p_flags] is clear, writable
    exactly when bit 1 is set; the other mappings are the earlier ones. *)
Theorem map_segment_pte_flags (self : BootContext) (segment : ProgramHeader)
    (m m' : Machine FwState) (s : Slice) (self' : BootContext) :
  map_segment fw_allocate_pages KERNEL_MEMORY self segment m = Some ((s, self'), m') ->
  forall e, In e (entries (mapper self')) ->
  In e (entries (mapper self)) \/
  (present (entry_flags e) = true /\
   no_execute (entry_flags e) = (Z.land (p_flags segment) 1 =? 0) /\
   writable (entry_flags e) = negb (Z.land (p_flags segment) 2 =? 0)).
Proof.
  intros H e Hin.
  destruct (map_segment_inv self segment m m' s self' H)
    as (pa' & ve & pe & mp & _ & _ & _ & _ & Hmap & ->).
  simpl in Hin.
  destruct (map_all_entries _ _ _ _ Hmap e Hin) as [Hold|Hf]; [left; exact Hold|].
  right. rewrite Hf. apply segment_flags_bits.
Qed.

(** The bytes of a fresh byte slice. *)
Lemma allocate_byte_slice_zero (self : BootContext) (n : Z)
    (allocate_type : AllocateType) (memory_type : MemoryType)
    (m m' : Machine FwState) (s : Slice) :
  allocate_slice_inner fw_allocate_pages 1 self n allocate_type memory_type m = Some (s, m') ->
  len s = n /\ read_bytes (ram m') (ptr s) n = repeat 0 (Z.to_nat n).
Proof.
  unfold allocate_slice_inner.
  destruct (fw_allocate_pages (fw m) allocate_type memory_type (calculate_pages (1 * n)))
    as [[pointer fw']|]; [|discriminate].
  intros H; inversion H; subst; simpl.
  split; [reflexivity|]. apply read_bytes_written_zero.
Qed.

(** C4: the slice [allocate_slice_inner] returns for bytes (as
    [allocate_byte_slice] and the .init branch of [map_segment] use it)
    has the requested length and reads as zeros. *)
Theorem allocate_slice_inner_zeroed (self : BootContext) (n : Z)
    (allocate_type : AllocateType) (memory_type : MemoryType)
    (m m' : Machine FwState) (s : Slice) :
  allocate_slice_inner fw_allocate_pages 1 self n allocate_type memory_type m = Some (s, m') ->
  len s = n /\ read_bytes (ram m') (ptr s) n = repeat 0 (Z.to_nat n).
Proof. exact (allocate_byte_slice_zero self n allocate_type memory_type m m' s).
Qed.

(** Hence the slice backing a mapped segment, before the file bytes are
    copied in, is [p_memsz] zero bytes. *)
Lemma map_segment_slice_zeroed (self : BootContext) (segment : ProgramHeader)
    (m m' : Machine FwState) (s : Slice) (self' : BootContext) :
  map_segment fw_allocate_pages KERNEL_MEMORY self segment m = Some ((s, self'), m') ->
  len s = p_memsz segment /\
  read_bytes (ram m') (ptr s) (p_memsz segment) = repeat 0 (Z.to_nat (p_memsz segment)).
Proof.
  intros H.
  destruct (map_segment_inv self segment m m' s self' H) as (_ & _ & _ & _ & Hs & _).
  unfold segment_slice, allocate_byte_slice, allocate_slice in Hs.
  destruct (p_paddr segment =? 0x10_0000); eapply allocate_byte_slice_zero; exact Hs.
Qed.

(** C5: a segment whose physical load address is 0x10_0000 gets its
    backing memory from an [AllocateType::Address(0x10_0000)] request, so
    at exactly that address when the firmware honours such requests (as
    UEFI [AllocatePages] with [AllocateAddress] does); every other segment
    gets the address the firmware picks for an [AnyPages] request. *)
Theorem map_segment_init_address (self : BootContext) (segment : ProgramHeader)
    (m m' : Machine FwState) (s : Slice) (self' : BootContext) :
  (forall st a mt n p st',
     fw_allocate_pages st (Address a) mt n = Some (p, st') -> p = a) ->
  map_segment fw_allocate_pages KERNEL_MEMORY self segment m = Some ((s, self'), m') ->
  (p_paddr segment = 0x10_0000 ->
     ptr s = 0x10_0000 /\
     exists st', fw_allocate_pages (fw m) (Address 0x10_0000) KERNEL_MEMORY
                   (calculate_pages (1 * p_memsz segment)) = Some (ptr s, st')) /\
  (p_paddr segment <> 0x10_0000 ->
     exists st', fw_allocate_pages (fw m) AnyPages KERNEL_MEMORY
                   (calculate_pages (1 * p_memsz segment)) = Some (ptr s, st')).
Proof.
  intros Hfw H.
  destruct (map_segment_inv self segment m m' s self' H) as (_ & _ & _ & _ & Hs & _).
  unfold segment_slice, allocate_byte_slice, allocate_slice, allocate_slice_inner in Hs.
  split; intros Hp.
  - rewrite (proj2 (Z.eqb_eq _ _) Hp) in Hs.
    destruct (fw_allocate_pages (fw m) (Address 0x10_0000) KERNEL_MEMORY
                (calculate_pages (1 * p_memsz segment))) as [[p st']|] eqn:Ha;
      [|discriminate].
    inversion Hs; subst; simpl.
    split; [exact (Hfw _ _ _ _ _ _ Ha) | exists st'; reflexivity].
  - rewrite (proj2 (Z.eqb_neq _ _) Hp) in Hs.
    destruct (fw_allocate_pages (fw m) AnyPages KERNEL_MEMORY
                (calculate_pages (1 * p_memsz segment))) as [[p st']|] eqn:Ha;
      [|discriminate].
    inversion Hs; subst; simpl. exists st'; reflexivity.
Qed.

(* ------------------------------------------------------------------ *)
(** ** Exiting boot services *)

(** C6: the runtime context has the boot context's page allocator and
    mapper, and a static-map frame allocator over the memory map the
    firmware handed back at the exit. *)
Theorem exit_boot_services_moves_allocator_mapper (self : BootContext)
    (m m' : Machine FwState) (rc : RuntimeContext) :
  exit_boot_services fw_allocate_pages fw_memory_map_size fw_memory_map self m = Some (rc, m') ->
  rt_page_allocator rc = page_allocator self /\
  rt_mapper rc = mapper self /\
  rt_frame_allocator rc = LegacyFrameAllocator_new (fw_memory_map (fw m')).
Proof.
  unfold exit_boot_services, allocate_byte_slice, allocate_slice, allocate_slice_inner,
    uefi_exit_boot_services, bbind, bret.
  destruct (fw_allocate_pages (fw m) AnyPages LOADER_DATA _) as [[p st']|]; [|discriminate].
  simpl.
  destruct (_ <=? _); [|discriminate].
  intros H; inversion H; subst; simpl. auto.
Qed.

(** C1 (as the code has it): [exit_boot_services] reserves the reported
    map size plus 4 descriptors. With a map of [n] descriptors of
    [entry_size] bytes reported, and [n + g] descriptors when the firmware
    writes the map at the exit, the exit succeeds exactly when [g <= 4]. *)
Theorem exit_boot_services_headroom (self : BootContext) (m : Machine FwState)
    (p : Z) (st1 : FwState) (n g : Z) :
  let mms := fw_memory_map_size (fw m) in
  fw_allocate_pages (fw m) AnyPages LOADER_DATA
    (calculate_pages (1 * (map_size mms + 4 * entry_size mms))) = Some (p, st1) ->
  0 < entry_size mms ->
  map_size mms = n * entry_size mms ->
  Z.of_nat (List.length (fw_memory_map st1)) = n + g ->
  (exists r, exit_boot_services fw_allocate_pages fw_memory_map_size fw_memory_map self m
             = Some r) <-> g <= 4.
Proof.
  intros mms Ha Hes Hms Hlen.
  unfold exit_boot_services, allocate_byte_slice, allocate_slice, allocate_slice_inner,
    uefi_exit_boot_services, bbind, bret.
  fold mms. rewrite Ha. cbn [len fw]. rewrite Hlen, Hms.
  destruct ((n + g) * entry_size mms <=? n * entry_size mms + 4 * entry_size mms) eqn:Hle.
  - apply Z.leb_le in Hle. split; [intros _; nia | intros _; eexists; reflexivity].
  - apply Z.leb_gt in Hle. split; [intros [r Hr]; discriminate | intros Hg; nia].
Qed.

End BootFacts.

(* ------------------------------------------------------------------ *)
(** ** End addresses of a segment *)


(* ================================================================== *)
(** * The properties at concrete inputs *)

(** C9 at an RGB 800x600 mode. *)
Lemma get_frame_buffer_bpp_format_witness :
  let fw := mkFirmware true (Some 7) true (gop.mkModeInfo (800, 600) gop.Rgb 800)
              (0x80000000, 1920000) []
              "Error { status: DEVICE_ERROR, data: () }" in
  let fb := mkFrameBuffer 0x80000000 (mkFrameBufferInfo 1920000 800 600 Rgb 4 800) in
  let s' := mkMainState globals0 [EvGopLocate; EvGopOpen] in
  get_frame_buffer fw main_state0 = (Done (Some fb), s') /\
  bytes_per_pixel (info fb) = 4 /\ (pixel_format (info fb) = Rgb \/ pixel_format (info fb) = Bgr).
Proof.
  intros fw fb s'. split; [reflexivity|].
  exact (get_frame_buffer_bpp_format fw main_state0 s' fb eq_refl).
Defined.

(** C7 at a Bitmask mode. *)
Lemma main_unsupported_pixel_format_fatal_witness :
  let fw := mkFirmware true (Some 7) true (gop.mkModeInfo (800, 600) gop.Bitmask 800)
              (0x80000000, 1920000) [mkConfigTableEntry ACPI2_GUID 0xF0000]
              "Error { status: DEVICE_ERROR, data: () }" in
  (stdout_clear_ok fw = true /\ gop_handle fw <> None /\ gop_open_ok fw = true) /\
  exists msg,
  main_prefix fw main_state0
  = (Panicked msg,
     mkMainState (mkGlobals true None false Off) [EvStdoutClear; EvGopLocate; EvGopOpen]).
Proof.
  intros fw. split; [split; [reflexivity | split; [discriminate | reflexivity]]|].
  apply (main_unsupported_pixel_format_fatal fw); [reflexivity | discriminate | reflexivity |].
  left; reflexivity.
Defined.

(** C8 with both sinks initialised, over two rounds of the idle loop. *)
Lemma panic_writes_then_halts_witness :
  let g := mkGlobals true (Some (mkFrameBufferInfo 1920000 800 600 Rgb 4 800)) true LTrace in
  globals_wf g /\
  PanicHandler.trace_n 9 (PanicHandler.panic g "oops")
  = [PanicHandler.LConsole "oops"; PanicHandler.LUnlock; PanicHandler.LLog "oops";
     PanicHandler.LCli; PanicHandler.LHlt; PanicHandler.LCli; PanicHandler.LHlt].
Proof.
  intros g.
  assert (Hwf : globals_wf g).
  { split; [split; discriminate | reflexivity]. }
  split; [exact Hwf|].
  exact (PanicHandlerFacts.panic_writes_then_halts g "oops" 2 Hwf).
Defined.

(** C3 at an R-X segment: its one mapping is present and executable,
    not writable. *)
Lemma map_segment_pte_flags_witness :
  let self' := mkBootContext 1 2 (mkPageAllocator [(512, 512)])
                 (mkMapper 0 [(512, 512, mkPteFlags true false false)]) in
  let m' := mkMachine (write_bytes toy_ram 0x200000 0 (0x1000 * 1))
                      (mkToyFw (0x200000 + 1 * PAGE_SIZE) 65 1) in
  map_segment toy_allocate_pages TOY_KERNEL_MEMORY toy_ctx text_segment (toy_machine 1)
  = Some ((mkSlice 0x200000 0x1000, self'), m') /\
  (In (512, 512, mkPteFlags true false false) (entries (mapper toy_ctx)) \/
   (present (mkPteFlags true false false) = true /\
    no_execute (mkPteFlags true false false) = (Z.land (p_flags text_segment) 1 =? 0) /\
    writable (mkPteFlags true false false) = negb (Z.land (p_flags text_segment) 2 =? 0))).
Proof.
  intros self' m'. split; [reflexivity|].
  apply (map_segment_pte_flags ToyFw toy_allocate_pages TOY_KERNEL_MEMORY toy_ctx text_segment
           (toy_machine 1) m' (mkSlice 0x200000 0x1000) self' eq_refl).
  simpl. left. reflexivity.
Defined.

(** C4 at a 16-byte allocation over memory holding 0xAA. *)
Lemma allocate_slice_inner_zeroed_witness :
  let m' := mkMachine (write_bytes toy_ram 0x200000 0 (16 * 1))
                      (mkToyFw (0x200000 + 1 * PAGE_SIZE) 64 0) in
  allocate_slice_inner toy_allocate_pages 1 toy_ctx 16 AnyPages LOADER_DATA (toy_machine 0)
  = Some (mkSlice 0x200000 16, m') /\
  len (mkSlice 0x200000 16) = 16 /\
  read_bytes (ram m') 0x200000 16 = repeat 0 16.
Proof.
  intros m'. split; [reflexivity|].
  exact (allocate_slice_inner_zeroed ToyFw toy_allocate_pages toy_ctx 16 AnyPages LOADER_DATA
           (toy_machine 0) m' (mkSlice 0x200000 16) eq_refl).
Defined.

(** C5 at the .init segment. *)
Lemma map_segment_init_address_witness :
  let self' := mkBootContext 1 2 (mkPageAllocator [(256, 256)])
                 (mkMapper 0 [(256, 256, mkPteFlags true true false)]) in
  let m' := mkMachine (write_bytes toy_ram 0x100000 0 (0x100 * 1))
                      (mkToyFw 0x200000 65 1) in
  (forall st a mt n p st',
     toy_allocate_pages st (Address a) mt n = Some (p, st') -> p = a) /\
  map_segment toy_allocate_pages TOY_KERNEL_MEMORY toy_ctx init_segment (toy_machine 1)
  = Some ((mkSlice 0x100000 0x100, self'), m') /\
  ptr (mkSlice 0x100000 0x100) = 0x10_0000.
Proof.
  intros self' m'.
  assert (Hfw : forall st a mt n p st',
            toy_allocate_pages st (Address a) mt n = Some (p, st') -> p = a).
  { intros st a mt n p st' H. simpl in H. inversion H. reflexivity. }
  split; [exact Hfw | split; [reflexivity|]].
  exact (proj1 (proj1 (map_segment_init_address ToyFw toy_allocate_pages TOY_KERNEL_MEMORY
           toy_ctx init_segment (toy_machine 1) m' (mkSlice 0x100000 0x100) self' Hfw eq_refl)
           eq_refl)).
Defined.

(** C6 with a map that grows by 4 entries. *)
Lemma exit_boot_services_moves_allocator_mapper_witness :
  let m' := mkMachine (write_bytes toy_ram 0x200000 0 ((64 * 64 + 4 * 64) * 1))
                      (mkToyFw (0x200000 + 2 * PAGE_SIZE) 68 4) in
  let rc := mkRuntimeContext PageAllocator_new
              (LegacyFrameAllocator_new (toy_memory_map (mkToyFw 0x202000 68 4)))
              (mkMapper 0 []) in
  exit_boot_services toy_allocate_pages toy_memory_map_size toy_memory_map toy_ctx
    (toy_machine 4) = Some (rc, m') /\
  rt_page_allocator rc = page_allocator toy_ctx /\
  rt_mapper rc = mapper toy_ctx /\
  rt_frame_allocator rc = LegacyFrameAllocator_new (toy_memory_map (fw m')).
Proof.
  intros m' rc. split; [reflexivity|].
  exact (exit_boot_services_moves_allocator_mapper ToyFw toy_allocate_pages toy_memory_map_size
           toy_memory_map toy_ctx (toy_machine 4) m' rc eq_refl).
Defined.

(** C1 (as the code has it) at the spec's 4096-byte map of 64-byte
    descriptors, growing by 4 entries: the exit succeeds. *)
Lemma exit_boot_services_headroom_witness :
  toy_allocate_pages (fw (toy_machine 4)) AnyPages LOADER_DATA
    (calculate_pages (1 * (4096 + 4 * 64))) = Some (0x200000, mkToyFw 0x202000 68 4) /\
  ((exists r, exit_boot_services toy_allocate_pages toy_memory_map_size toy_memory_map toy_ctx
                (toy_machine 4) = Some r) <-> 4 <= 4).
Proof.
  split; [reflexivity|].
  exact (exit_boot_services_headroom ToyFw toy_allocate_pages toy_memory_map_size toy_memory_map
           toy_ctx (toy_machine 4) 0x200000 (mkToyFw 0x202000 68 4) 64 4
           eq_refl ltac:(vm_compute; reflexivity) eq_refl eq_refl).
Defined.

(** C1 refuted: the same 4096-byte map of 64-byte descriptors, growing by
    5 entries (fewer than 8) when the storage is allocated; the exit
    panics. *)
Lemma exit_boot_services_five_entries_fail :
  toy_memory_map_size (fw (toy_machine 5)) = mkMemoryMapSize 64 4096 /\
  toy_allocate_pages (fw (toy_machine 5)) AnyPages LOADER_DATA
    (calculate_pages (1 * (4096 + 4 * 64))) = Some (0x200000, mkToyFw 0x202000 69 5) /\
  List.length (toy_memory_map (mkToyFw 0x202000 69 5)) = (64 + 5)%nat /\
  (5 < 8)%nat /\
  exit_boot_services toy_allocate_pages toy_memory_map_size toy_memory_map toy_ctx
    (toy_machine 5) = None.
Proof.
  split; [reflexivity|]. split; [reflexivity|]. split; [reflexivity|].
  split; [lia|]. vm_compute. reflexivity.
Qed.



(* ================================================================== *)
(** * Further properties of the code *)

(* ------------------------------------------------------------------ *)
(** ** Framebuffer discovery and [main]'s setup *)

(** [get_frame_buffer] leaves the globals alone; it gives [None] exactly
    when no GOP handle is found or the protocol cannot be opened, and
    panics exactly when the GOP is opened and its pixel format is Bitmask
    or BltOnly. *)
Theorem get_frame_buffer_outcomes (fw : Firmware) (s : MainState) :
  globals (snd (get_frame_buffer fw s)) = globals s /\
  (fst (get_frame_buffer fw s) = Done None <->
     gop_handle fw = None \/ gop_open_ok fw = false) /\
  ((exists msg, fst (get_frame_buffer fw s) = Panicked msg) <->
     gop_handle fw <> None /\ gop_open_ok fw = true /\
     (gop.pixel_format (gop_mode_info fw) = gop.Bitmask \/
      gop.pixel_format (gop_mode_info fw) = gop.BltOnly)).
Proof.
  unfold get_frame_buffer, gop_frame_buffer_call, mbind, emit, mret, mpanic.
  destruct (gop_handle fw) as [h|]; simpl;
    [destruct (gop_open_ok fw); simpl;
     [destruct (gop.pixel_format (gop_mode_info fw)); simpl|]|];
    (split; [reflexivity|]);
    split; split; intros Hx;
    repeat match goal with
           | H : _ /\ _ |- _ => destruct H
           | H : _ \/ _ |- _ => destruct H
           | H : exists _, _ |- _ => destruct H
           end;
    try discriminate; try congruence; eauto;
    repeat split; eauto; discriminate.
Qed.

(** When [main]'s setup panics, the [SYSTEM_TABLE] slot is still set and
    no logger is installed. *)
Lemma main_prefix_panic_globals (fw : Firmware) (msg : string) (s : MainState) :
  main_prefix fw main_state0 = (Panicked msg, s) ->
  globals s = mkGlobals true None false Off.
Proof.
  unfold main_prefix, get_frame_buffer, gop_frame_buffer_call, init_logger, logger_call_once,
    log_set_logger, log_set_max_level, log_at, set_system_table, set_globals, get_globals,
    mexpect, mbind, emit, mret, mpanic; simpl.
  destruct (stdout_clear_ok fw); simpl; [| intros H; inversion H; subst; reflexivity].
  destruct (gop_handle fw); simpl; [| discriminate].
  destruct (gop_open_ok fw); simpl; [| discriminate].
  destruct (gop.pixel_format (gop_mode_info fw)); simpl;
    try discriminate; intros H; inversion H; subst; reflexivity.
Qed.

(** [main] panics during its setup only before the logger exists: at the
    [expect] on clearing the console, with its message followed by the
    firmware's error; at the [uefi] crate's assertion in
    [gop.frame_buffer()] for a Blt-only mode; or at the [panic!] for a
    Bitmask mode. [init_logger]'s "logger already set" never fires. When it
    panics, the [SYSTEM_TABLE] slot is still set and no logger is
    installed. *)
Theorem main_prefix_panics (fw : Firmware) (msg : string) (s : MainState) :
  main_prefix fw main_state0 = (Panicked msg, s) ->
  ((stdout_clear_ok fw = false /\
    msg = String.append "failed to clear stdout" (String.append ": " (stdout_clear_err fw))) \/
   (stdout_clear_ok fw = true /\ gop.pixel_format (gop_mode_info fw) = gop.BltOnly /\
    msg = "Cannot access the framebuffer in a Blt-only mode"%string) \/
   (stdout_clear_ok fw = true /\ gop.pixel_format (gop_mode_info fw) = gop.Bitmask /\
    msg = "Bitmask and BltOnly framebuffers are not supported"%string)) /\
  globals s = mkGlobals true None false Off.
Proof.
  intros H. split; [|exact (main_prefix_panic_globals fw msg s H)].
  revert H.
  unfold main_prefix, get_frame_buffer, gop_frame_buffer_call, init_logger, logger_call_once,
    log_set_logger, log_set_max_level, log_at, set_system_table, set_globals, get_globals,
    mexpect, mbind, emit, mret, mpanic; simpl.
  destruct (stdout_clear_ok fw); simpl; [| intros H; inversion H; subst; left; auto].
  destruct (gop_handle fw); simpl; [| discriminate].
  destruct (gop_open_ok fw); simpl; [| discriminate].
  destruct (gop.pixel_format (gop_mode_info fw)) eqn:Hpf; simpl;
    try discriminate; intros H; inversion H; subst; right; [right | left]; auto.
Qed.

Local Ltac finish_done :=
  repeat (split; [reflexivity|]);
  match goal with
  | |- exists pre, ?l = pre ++ _ => exists (firstn (List.length l - 3) l); reflexivity
  end.

(** When [main]'s setup completes, the [SYSTEM_TABLE] slot is cleared, the
    framebuffer logger is initialised (and installed at level Trace)
    exactly when a framebuffer was found, with that framebuffer's info,
    and the RSDP address is [get_rsdp_address] of the configuration table;
    the kernel-loading step comes last. *)
Theorem main_prefix_done (fw : Firmware) (fb : option FrameBuffer) (rsdp : option Z)
    (s : MainState) :
  main_prefix fw main_state0 = (Done (fb, rsdp), s) ->
  SYSTEM_TABLE (globals s) = false /\
  LOGGER (globals s) = option_map info fb /\
  log_logger_set (globals s) = match fb with Some _ => true | None => false end /\
  rsdp = get_rsdp_address (config_table fw) /\
  exists pre, trace s = pre ++ [EvReadConfigTable; EvBootContextNew; EvLoadKernel].
Proof.
  unfold main_prefix, get_frame_buffer, gop_frame_buffer_call, init_logger, logger_call_once, log_set_logger,
    log_set_max_level, log_at, set_system_table, set_globals, get_globals, mexpect,
    mbind, emit, mret, mpanic; simpl.
  destruct (stdout_clear_ok fw); simpl; [| discriminate].
  destruct (gop_handle fw); simpl.
  - destruct (gop_open_ok fw); simpl.
    + destruct (gop.pixel_format (gop_mode_info fw)); simpl; try discriminate;
        intros H; inversion H; subst; simpl;
        finish_done.
    + intros H; inversion H; subst; simpl;
        finish_done.
  - intros H; inversion H; subst; simpl;
      finish_done.
Qed.

(** A panic during [main]'s setup is reported on the firmware console
    only, then the processor idles for ever. *)
Theorem main_prefix_panic_reported_on_console (fw : Firmware) (msg : string) (s : MainState)
    (n : nat) :
  main_prefix fw main_state0 = (Panicked msg, s) ->
  PanicHandler.trace_n (1 + 3 * n) (PanicHandler.panic (globals s) msg)
  = PanicHandler.LConsole msg :: PanicHandler.halt_labels n.
Proof.
  intros H.
  pose proof (main_prefix_globals_wf fw) as Hwf. rewrite H in Hwf. simpl in Hwf.
  pose proof (PanicHandlerFacts.panic_trace (globals s) msg n Hwf) as Ht.
  pose proof (main_prefix_panic_globals fw msg s H) as Hg.
  rewrite Hg in Ht |- *. exact Ht.
Qed.

(** A panic after [main]'s setup (kernel loading and later) is no longer
    written to the firmware console; it goes to the framebuffer logger
    exactly when a framebuffer was found, then the processor idles. *)
Theorem main_later_panic_reporting (fw : Firmware) (fb : option FrameBuffer) (rsdp : option Z)
    (s : MainState) (msg : string) (n : nat) :
  main_prefix fw main_state0 = (Done (fb, rsdp), s) ->
  let diag := match fb with
              | Some _ => [PanicHandler.LUnlock; PanicHandler.LLog msg]
              | None => []
              end in
  PanicHandler.trace_n (List.length diag + 3 * n) (PanicHandler.panic (globals s) msg)
  = diag ++ PanicHandler.halt_labels n.
Proof.
  intros H diag.
  pose proof (main_prefix_globals_wf fw) as Hwf. rewrite H in Hwf. simpl in Hwf.
  pose proof (PanicHandlerFacts.panic_trace (globals s) msg n Hwf) as Ht.
  destruct (main_prefix_done fw fb rsdp s H) as (Hst & Hlog & _).
  rewrite Hst, Hlog in Ht. simpl in Ht.
  subst diag. destruct fb; exact Ht.
Qed.

(* ------------------------------------------------------------------ *)
(** ** Allocation and segment mapping *)

Lemma combine_map_seq (f g : nat -> Z) (s n1 n2 : nat) :
  combine (map f (seq s n1)) (map g (seq s n2))
  = map (fun i => (f i, g i)) (seq s (Nat.min n1 n2)).
Proof.
  revert s n2. induction n1 as [|n1 IH]; intros s n2; [reflexivity|].
  destruct n2 as [|n2]; [reflexivity|]. simpl. f_equal. apply IH.
Qed.

Lemma distinct_pages_seq (a c : Z) (s n : nat) :
  distinct_pages (map (fun i => (a + Z.of_nat i, c + Z.of_nat i)) (seq s n)).
Proof.
  revert s. induction n as [|n IH]; intros s; simpl; [exact I|].
  split; [|apply IH].
  intros q Hq. apply in_map_iff in Hq. destruct Hq as (j & <- & Hj).
  apply in_seq in Hj. simpl. lia.
Qed.

Lemma mapper_map_new (m m' : Mapper) (page frame : Z) (flags : PteFlags) :
  mapper_map m page frame flags = Some m' ->
  In (page, frame, flags) (entries m') /\
  (forall e, In e (entries m') -> In e (entries m) \/ e = (page, frame, flags)) /\
  (forall e, In e (entries m) -> entry_page e <> page -> In e (entries m')) /\
  root m' = root m.
Proof.
  unfold mapper_map.
  destruct (find (fun e => entry_page e =? page) (entries m)) as [old|].
  - destruct (PteFlags_eqb (entry_flags old) flags); [|discriminate].
    intros H; inversion H; subst; clear H; simpl.
    split; [left; reflexivity|]. split; [|split; [|reflexivity]].
    + intros e [<- | Hin]; [right; reflexivity|]. left. apply filter_In in Hin. tauto.
    + intros e Hin Hne. right. apply filter_In. split; [exact Hin|].
      apply negb_true_iff, Z.eqb_neq. exact Hne.
  - intros H; inversion H; subst; clear H; simpl.
    split; [left; reflexivity|]. split; [|split; [|reflexivity]].
    + intros e [<- | Hin]; [right; reflexivity | left; exact Hin].
    + intros e Hin _. right. exact Hin.
Qed.

Lemma map_all_keeps (pfs : list (Z * Z)) :
  forall (m m' : Mapper) (flags : PteFlags) e,
  map_all m pfs flags = Some m' -> In e (entries m) ->
  (forall q, In q pfs -> fst q <> entry_page e) -> In e (entries m').
Proof.
  induction pfs as [|[page frame] rest IH]; simpl; intros m m' flags e H Hin Hne.
  - inversion H; subst; exact Hin.
  - destruct (mapper_map m page frame flags) as [m1|] eqn:Hm; [|discriminate].
    destruct (mapper_map_new _ _ _ _ _ Hm) as (_ & _ & Hkeep & _).
    apply (IH m1 m' flags e H); [|intros q Hq; apply Hne; right; exact Hq].
    apply Hkeep; [exact Hin|]. intros Heq. apply (Hne (page, frame)); [left; reflexivity|].
    simpl. congruence.
Qed.

(** [map_all] over distinct pages: every pair ends up mapped, and every
    entry is an earlier one or one of the pairs. *)
Lemma map_all_exact (pfs : list (Z * Z)) :
  forall (m m' : Mapper) (flags : PteFlags),
  distinct_pages pfs -> map_all m pfs flags = Some m' ->
  (forall pf, In pf pfs -> In (fst pf, snd pf, flags) (entries m')) /\
  (forall e, In e (entries m') ->
     In e (entries m) \/ exists pf, In pf pfs /\ e = (fst pf, snd pf, flags)) /\
  root m' = root m.
Proof.
  induction pfs as [|[page frame] rest IH]; simpl; intros m m' flags Hd H.
  - inversion H; subst. split; [intros _ []|]. split; [intros e Hin; left; exact Hin|reflexivity].
  - destruct Hd as [Hne Hd].
    destruct (mapper_map m page frame flags) as [m1|] eqn:Hm; [|discriminate].
    destruct (mapper_map_new _ _ _ _ _ Hm) as (Hin1 & Hnew1 & _ & Hroot1).
    destruct (IH m1 m' flags Hd H) as (Hall & Hnew & Hroot).
    split; [|split].
    + intros pf [<- | Hpf]; [|exact (Hall pf Hpf)].
      apply (map_all_keeps rest m1 m' flags _ H Hin1). simpl. exact Hne.
    + intros e He. destruct (Hnew e He) as [He1|(pf & Hpf & ->)].
      * destruct (Hnew1 e He1) as [He0 | ->]; [left; exact He0|].
        right. exists (page, frame). split; [left|]; reflexivity.
      * right. exists pf. split; [right; exact Hpf | reflexivity].
    + congruence.
Qed.

Section BootExtras.

Variable FwState : Type.
Variable fw_allocate_pages : FwState -> AllocateType -> MemoryType -> Z -> option (Z * FwState).
Variable fw_memory_map_size : FwState -> MemoryMapSize.
Variable fw_memory_map : FwState -> list MemoryDescriptor.
Variable KERNEL_MEMORY : MemoryType.

Lemma end_inclusive_value (start memsz e : Z) :
  end_inclusive start memsz = Some e -> e = start + memsz - 1.
Proof.
  unfold end_inclusive, addr_add, addr_sub.
  destruct (start + memsz <? WORD); [|discriminate].
  destruct (0 <=? start + memsz - 1); [|discriminate].
  intros H; inversion H; reflexivity.
Qed.

Lemma in_seq_shift (a c : Z) (k : nat) (i : Z) :
  0 <= i < Z.of_nat k ->
  In (a + i, c + i) (map (fun j => (a + Z.of_nat j, c + Z.of_nat j)) (seq 0 k)).
Proof.
  intros Hi. apply in_map_iff. exists (Z.to_nat i). split.
  - rewrite Z2Nat.id by lia. reflexivity.
  - apply in_seq. lia.
Qed.

(** When [size_of::<T>() * len] fits in a [usize] (past 2^64 Rust's
    multiplication panics or wraps), [allocate_slice_inner] asks the
    firmware for enough pages to hold the [len * size_of::<T>()] bytes it
    zeroes, and writes no byte outside the slice it returns. *)
Theorem allocate_slice_inner_in_bounds (es : Z) (self : BootContext) (n : Z)
    (at_ : AllocateType) (mt : MemoryType) (m m' : Machine FwState) (s : Slice) :
  0 <= es -> 0 <= n -> es * n < WORD ->
  allocate_slice_inner fw_allocate_pages es self n at_ mt m = Some (s, m') ->
  exists pages,
    fw_allocate_pages (fw m) at_ mt pages = Some (ptr s, fw m') /\
    len s * es <= pages * PAGE_SIZE /\
    forall a, ~ (ptr s <= a < ptr s + len s * es) -> ram m' a = ram m a.
Proof.
  intros Hes Hn _. unfold allocate_slice_inner.
  destruct (fw_allocate_pages (fw m) at_ mt (calculate_pages (es * n))) as [[p f']|] eqn:Hf;
    [|discriminate].
  intros H; inversion H; subst; clear H. simpl.
  exists (calculate_pages (es * n)). split; [exact Hf|]. split.
  - unfold calculate_pages, PAGE_SIZE.
    pose proof (Z.mod_pos_bound (es * n + 4096 - 1) 4096 ltac:(lia)).
    pose proof (Z.div_mod (es * n + 4096 - 1) 4096 ltac:(lia)). nia.
  - intros a Ha. unfold write_bytes.
    destruct ((p <=? a) && (a <? p + n * es)) eqn:Hb; [|reflexivity].
    apply andb_true_iff in Hb. destruct Hb as [H1 H2].
    apply Z.leb_le in H1. apply Z.ltb_lt in H2. exfalso. apply Ha. lia.
Qed.

Lemma map_segment_pairs_aux (self : BootContext) (segment : ProgramHeader)
    (m m' : Machine FwState) (s : Slice) (self' : BootContext) :
  map_segment fw_allocate_pages KERNEL_MEMORY self segment m = Some ((s, self'), m') ->
  let cs := containing_address (va_new_canonical (p_vaddr segment)) in
  let cf := containing_address (pa_new_canonical (ptr s)) in
  let n := Z.min (span_pages (va_new_canonical (p_vaddr segment)) (p_memsz segment))
                 (span_pages (pa_new_canonical (ptr s)) (p_memsz segment)) in
  (forall i, 0 <= i < n -> In (cs + i, cf + i, segment_flags segment) (entries (mapper self'))) /\
  (forall e, In e (entries (mapper self')) ->
     In e (entries (mapper self)) \/
     exists i, 0 <= i < n /\ e = (cs + i, cf + i, segment_flags segment)) /\
  root (mapper self') = root (mapper self).
Proof.
  intros H cs cf n.
  destruct (map_segment_inv FwState fw_allocate_pages KERNEL_MEMORY self segment m m' s self' H)
    as (pa' & ve & pe & mp & _ & _ & Hve & Hpe & Hmap & ->).
  apply end_inclusive_value in Hve. apply end_inclusive_value in Hpe.
  unfold inclusive_range in Hmap. rewrite combine_map_seq in Hmap.
  fold cs cf in Hmap. simpl.
  assert (Hn : Nat.min (Z.to_nat (containing_address ve - cs + 1))
                       (Z.to_nat (containing_address pe - cf + 1)) = Z.to_nat n).
  { unfold n, span_pages. rewrite Z2Nat.inj_min. subst ve pe. reflexivity. }
  rewrite Hn in Hmap.
  destruct (map_all_exact _ _ _ _ (distinct_pages_seq cs cf 0 (Z.to_nat n)) Hmap)
    as (Hall & Hnew & Hroot).
  split; [|split; [|exact Hroot]].
  - intros i Hi. apply (Hall (cs + i, cf + i)). apply in_seq_shift. lia.
  - intros e He. destruct (Hnew e He) as [Hold|(pf & Hpf & ->)]; [left; exact Hold|].
    right. apply in_map_iff in Hpf. destruct Hpf as (j & <- & Hj). apply in_seq in Hj.
    exists (Z.of_nat j). split; [lia | reflexivity].
Qed.

(** [map_segment] maps the i-th page of the segment's virtual range to the
    i-th frame of its slice, for every i below the shorter of the two
    ranges ([zip] stops there); every other mapping it leaves is an
    earlier one, and the root table is unchanged. *)
Theorem map_segment_page_frame_pairs (self : BootContext) (segment : ProgramHeader)
    (m m' : Machine FwState) (s : Slice) (self' : BootContext) :
  map_segment fw_allocate_pages KERNEL_MEMORY self segment m = Some ((s, self'), m') ->
  let cs := containing_address (va_new_canonical (p_vaddr segment)) in
  let cf := containing_address (pa_new_canonical (ptr s)) in
  let n := Z.min (span_pages (va_new_canonical (p_vaddr segment)) (p_memsz segment))
                 (span_pages (pa_new_canonical (ptr s)) (p_memsz segment)) in
  (forall i, 0 <= i < n -> In (cs + i, cf + i, segment_flags segment) (entries (mapper self'))) /\
  (forall e, In e (entries (mapper self')) ->
     In e (entries (mapper self)) \/
     exists i, 0 <= i < n /\ e = (cs + i, cf + i, segment_flags segment)) /\
  root (mapper self') = root (mapper self).
Proof. exact (map_segment_pairs_aux self segment m m' s self').
Qed.

Lemma aligned_span (v p z : Z) :
  0 <= p < WORD -> p mod PAGE_SIZE = 0 -> 1 <= z ->
  Z.min (span_pages v z) (span_pages (pa_new_canonical p) z) = calculate_pages z /\
  calculate_pages z <= span_pages v z.
Proof.
  intros Hp Hal Hsz.
  unfold span_pages, calculate_pages, containing_address, pa_new_canonical.
  rewrite (Z.mod_small p WORD Hp).
  assert (Hc : (z + PAGE_SIZE - 1) / PAGE_SIZE = (z - 1) / PAGE_SIZE + 1).
  { replace (z + PAGE_SIZE - 1) with ((z - 1) + 1 * PAGE_SIZE) by lia.
    rewrite Z.div_add; unfold PAGE_SIZE; lia. }
  assert (Hf : (p + z - 1) / PAGE_SIZE - p / PAGE_SIZE + 1 = (z - 1) / PAGE_SIZE + 1).
  { pose proof (Z.div_mod p PAGE_SIZE ltac:(unfold PAGE_SIZE; lia)) as Hd.
    rewrite Hal, Z.add_0_r in Hd.
    rewrite Hd at 1. rewrite Hd at 2.
    replace (PAGE_SIZE * (p / PAGE_SIZE) + z - 1)
      with ((z - 1) + (p / PAGE_SIZE) * PAGE_SIZE) by lia.
    rewrite Z.div_add by (unfold PAGE_SIZE; lia).
    rewrite Z.mul_comm, Z.div_mul by (unfold PAGE_SIZE; lia). lia. }
  assert (Hv : (z - 1) / PAGE_SIZE + 1 <= (v + z - 1) / PAGE_SIZE - v / PAGE_SIZE + 1).
  { pose proof (Z.div_mod v PAGE_SIZE ltac:(unfold PAGE_SIZE; lia)) as Hd.
    pose proof (Z.mod_pos_bound v PAGE_SIZE ltac:(unfold PAGE_SIZE; lia)) as Hr.
    replace (v + z - 1) with ((z - 1 + v mod PAGE_SIZE) + (v / PAGE_SIZE) * PAGE_SIZE) by lia.
    rewrite Z.div_add by (unfold PAGE_SIZE; lia).
    pose proof (Z.div_le_mono (z - 1) (z - 1 + v mod PAGE_SIZE) PAGE_SIZE
                  ltac:(unfold PAGE_SIZE; lia) ltac:(lia)). lia. }
  rewrite Hc, Hf. split; [lia | exact Hv].
Qed.

(** When the slice is page aligned, [map_segment] maps exactly the first
    [calculate_pages(p_memsz)] pages of the segment to consecutive frames
    from the slice's first one, however the virtual address sits in its
    page; that count never exceeds the pages the virtual range straddles,
    so an unaligned segment can straddle one page more than gets mapped. *)
Theorem map_segment_aligned_frame_count (self : BootContext) (segment : ProgramHeader)
    (m m' : Machine FwState) (s : Slice) (self' : BootContext) :
  0 <= ptr s < WORD -> ptr s mod PAGE_SIZE = 0 -> 1 <= p_memsz segment ->
  map_segment fw_allocate_pages KERNEL_MEMORY self segment m = Some ((s, self'), m') ->
  (forall i, 0 <= i < calculate_pages (p_memsz segment) ->
     In (containing_address (va_new_canonical (p_vaddr segment)) + i,
         ptr s / PAGE_SIZE + i, segment_flags segment) (entries (mapper self'))) /\
  (forall e, In e (entries (mapper self')) ->
     In e (entries (mapper self)) \/
     exists i, 0 <= i < calculate_pages (p_memsz segment) /\
       e = (containing_address (va_new_canonical (p_vaddr segment)) + i,
            ptr s / PAGE_SIZE + i, segment_flags segment)) /\
  calculate_pages (p_memsz segment)
  <= span_pages (va_new_canonical (p_vaddr segment)) (p_memsz segment).
Proof.
  intros Hp Hal Hsz H.
  destruct (map_segment_pairs_aux self segment m m' s self' H) as (Hall & Hnew & _).
  destruct (aligned_span (va_new_canonical (p_vaddr segment)) (ptr s) (p_memsz segment) Hp Hal Hsz)
    as [Hmin Hle].
  rewrite Hmin in Hall, Hnew.
  unfold containing_address at 2 in Hall. unfold containing_address at 2 in Hnew.
  unfold pa_new_canonical in Hall, Hnew. rewrite (Z.mod_small (ptr s) WORD Hp) in Hall, Hnew.
  split; [exact Hall|]. split; [exact Hnew | exact Hle].
Qed.


End BootExtras.

(* ------------------------------------------------------------------ *)
(** ** Witnesses of the further properties *)

(** [main] on a GOP in a Blt-only mode: the [uefi] crate's assertion fires. *)
Lemma main_prefix_panics_witness :
  let fw := mkFirmware true (Some 7) true (gop.mkModeInfo (800, 600) gop.BltOnly 800)
              (0x80000000, 1920000) []
              "Error { status: DEVICE_ERROR, data: () }" in
  let msg := "Cannot access the framebuffer in a Blt-only mode"%string in
  let s := mkMainState (mkGlobals true None false Off)
             [EvStdoutClear; EvGopLocate; EvGopOpen] in
  main_prefix fw main_state0 = (Panicked msg, s) /\
  (((stdout_clear_ok fw = false /\
     msg = String.append "failed to clear stdout" (String.append ": " (stdout_clear_err fw))) \/
    (stdout_clear_ok fw = true /\ gop.pixel_format (gop_mode_info fw) = gop.BltOnly /\
     msg = "Cannot access the framebuffer in a Blt-only mode"%string) \/
    (stdout_clear_ok fw = true /\ gop.pixel_format (gop_mode_info fw) = gop.Bitmask /\
     msg = "Bitmask and BltOnly framebuffers are not supported"%string)) /\
   globals s = mkGlobals true None false Off).
Proof.
  intros fw msg s. split; [reflexivity|].
  exact (main_prefix_panics fw msg s eq_refl).
Defined.

(** [main] when the console cannot be cleared: the [expect] message,
    reported on the console, then two rounds of [cli; hlt]. *)
Lemma main_prefix_panic_reported_on_console_witness :
  let fw := mkFirmware false None true (gop.mkModeInfo (800, 600) gop.Rgb 800)
              (0x80000000, 1920000) []
              "Error { status: DEVICE_ERROR, data: () }" in
  let msg := "failed to clear stdout: Error { status: DEVICE_ERROR, data: () }"%string in
  let s := mkMainState (mkGlobals true None false Off) [EvStdoutClear] in
  main_prefix fw main_state0 = (Panicked msg, s) /\
  PanicHandler.trace_n (1 + 3 * 2) (PanicHandler.panic (globals s) msg)
  = PanicHandler.LConsole msg :: PanicHandler.halt_labels 2.
Proof.
  intros fw msg s. split; [reflexivity|].
  exact (main_prefix_panic_reported_on_console fw msg s 2 eq_refl).
Defined.

(** [main] with an RGB framebuffer and an ACPI 2.0 table. *)
Lemma main_prefix_done_witness :
  let fw := mkFirmware true (Some 7) true (gop.mkModeInfo (800, 600) gop.Rgb 800)
              (0x80000000, 1920000) [mkConfigTableEntry ACPI2_GUID 0xF0000]
              "Error { status: DEVICE_ERROR, data: () }" in
  let fbi := mkFrameBufferInfo 1920000 800 600 Rgb 4 800 in
  let fb := Some (mkFrameBuffer 0x80000000 fbi) in
  let s := mkMainState (mkGlobals false (Some fbi) true LTrace)
             [EvStdoutClear; EvGopLocate; EvGopOpen; EvLogWrite "using framebuffer";
              EvReadConfigTable; EvBootContextNew; EvLoadKernel] in
  main_prefix fw main_state0 = (Done (fb, Some 0xF0000), s) /\
  (SYSTEM_TABLE (globals s) = false /\
   LOGGER (globals s) = option_map info fb /\
   log_logger_set (globals s) = match fb with Some _ => true | None => false end /\
   Some 0xF0000 = get_rsdp_address (config_table fw) /\
   exists pre, trace s = pre ++ [EvReadConfigTable; EvBootContextNew; EvLoadKernel]).
Proof.
  intros fw fbi fb s. split; [reflexivity|].
  exact (main_prefix_done fw fb (Some 0xF0000) s eq_refl).
Defined.

(** A later panic after that setup: unlock and write to the framebuffer
    logger only, then one round of [cli; hlt]. *)
Lemma main_later_panic_reporting_witness :
  let fw := mkFirmware true (Some 7) true (gop.mkModeInfo (800, 600) gop.Rgb 800)
              (0x80000000, 1920000) [mkConfigTableEntry ACPI2_GUID 0xF0000]
              "Error { status: DEVICE_ERROR, data: () }" in
  let fbi := mkFrameBufferInfo 1920000 800 600 Rgb 4 800 in
  let fb := Some (mkFrameBuffer 0x80000000 fbi) in
  let s := mkMainState (mkGlobals false (Some fbi) true LTrace)
             [EvStdoutClear; EvGopLocate; EvGopOpen; EvLogWrite "using framebuffer";
              EvReadConfigTable; EvBootContextNew; EvLoadKernel] in
  main_prefix fw main_state0 = (Done (fb, Some 0xF0000), s) /\
  PanicHandler.trace_n (2 + 3 * 1) (PanicHandler.panic (globals s) "oops")
  = [PanicHandler.LUnlock; PanicHandler.LLog "oops"] ++ PanicHandler.halt_labels 1.
Proof.
  intros fw fbi fb s. split; [reflexivity|].
  exact (main_later_panic_reporting fw fb (Some 0xF0000) s "oops" 1 eq_refl).
Defined.

(** The .text segment's slice is 0x1000 zero bytes. *)
Lemma map_segment_slice_zeroed_witness :
  let self' := mkBootContext 1 2 (mkPageAllocator [(512, 512)])
                 (mkMapper 0 [(512, 512, mkPteFlags true false false)]) in
  let m' := mkMachine (write_bytes toy_ram 0x200000 0 (0x1000 * 1))
                      (mkToyFw (0x200000 + 1 * PAGE_SIZE) 65 1) in
  map_segment toy_allocate_pages TOY_KERNEL_MEMORY toy_ctx text_segment (toy_machine 1)
  = Some ((mkSlice 0x200000 0x1000, self'), m') /\
  (len (mkSlice 0x200000 0x1000) = p_memsz text_segment /\
   read_bytes (ram m') 0x200000 (p_memsz text_segment)
   = repeat 0 (Z.to_nat (p_memsz text_segment))).
Proof.
  intros self' m'. split; [reflexivity|].
  exact (map_segment_slice_zeroed ToyFw toy_allocate_pages TOY_KERNEL_MEMORY toy_ctx
           text_segment (toy_machine 1) m' (mkSlice 0x200000 0x1000) self' eq_refl).
Defined.

(** Three 8-byte elements: one page requested, 24 bytes zeroed. *)
Lemma allocate_slice_inner_in_bounds_witness :
  let m' := mkMachine (write_bytes toy_ram 0x200000 0 (3 * 8))
                      (mkToyFw (0x200000 + 1 * PAGE_SIZE) 64 0) in
  (0 <= 8 /\ 0 <= 3 /\ 8 * 3 < WORD) /\
  allocate_slice_inner toy_allocate_pages 8 toy_ctx 3 AnyPages LOADER_DATA (toy_machine 0)
  = Some (mkSlice 0x200000 3, m') /\
  exists pages,
    toy_allocate_pages (fw (toy_machine 0)) AnyPages LOADER_DATA pages
    = Some (ptr (mkSlice 0x200000 3), fw m') /\
    len (mkSlice 0x200000 3) * 8 <= pages * PAGE_SIZE /\
    forall a, ~ (ptr (mkSlice 0x200000 3) <= a < ptr (mkSlice 0x200000 3)
                 + len (mkSlice 0x200000 3) * 8) -> ram m' a = ram (toy_machine 0) a.
Proof.
  intros m'. split; [split; [lia | split; [lia | vm_compute; reflexivity]]|].
  split; [reflexivity|].
  exact (allocate_slice_inner_in_bounds ToyFw toy_allocate_pages 8 toy_ctx 3 AnyPages
           LOADER_DATA (toy_machine 0) m' (mkSlice 0x200000 3)
           ltac:(lia) ltac:(lia) ltac:(vm_compute; reflexivity) eq_refl).
Defined.

(** The unaligned segment: its 0x1000 bytes straddle pages 512 and 513,
    which the page allocator claims, but only page 512 is mapped. *)
Lemma map_segment_page_frame_pairs_witness :
  let self' := mkBootContext 1 2 (mkPageAllocator [(512, 513)])
                 (mkMapper 0 [(512, 512, mkPteFlags true true true)]) in
  let m' := mkMachine (write_bytes toy_ram 0x200000 0 (0x1000 * 1))
                      (mkToyFw (0x200000 + 1 * PAGE_SIZE) 65 1) in
  let s := mkSlice 0x200000 0x1000 in
  map_segment toy_allocate_pages TOY_KERNEL_MEMORY toy_ctx unaligned_segment (toy_machine 1)
  = Some ((s, self'), m') /\
  (let cs := containing_address (va_new_canonical (p_vaddr unaligned_segment)) in
   let cf := containing_address (pa_new_canonical (ptr s)) in
   let n := Z.min (span_pages (va_new_canonical (p_vaddr unaligned_segment))
                              (p_memsz unaligned_segment))
                  (span_pages (pa_new_canonical (ptr s)) (p_memsz unaligned_segment)) in
   (forall i, 0 <= i < n ->
      In (cs + i, cf + i, segment_flags unaligned_segment) (entries (mapper self'))) /\
   (forall e, In e (entries (mapper self')) ->
      In e (entries (mapper toy_ctx)) \/
      exists i, 0 <= i < n /\ e = (cs + i, cf + i, segment_flags unaligned_segment)) /\
   root (mapper self') = root (mapper toy_ctx)).
Proof.
  intros self' m' s. split; [reflexivity|].
  exact (map_segment_page_frame_pairs ToyFw toy_allocate_pages TOY_KERNEL_MEMORY toy_ctx
           unaligned_segment (toy_machine 1) m' s self' eq_refl).
Defined.

(** The same segment: one page mapped for its 0x1000 bytes, of the two
    its virtual range straddles. *)
Lemma map_segment_aligned_frame_count_witness :
  let self' := mkBootContext 1 2 (mkPageAllocator [(512, 513)])
                 (mkMapper 0 [(512, 512, mkPteFlags true true true)]) in
  let m' := mkMachine (write_bytes toy_ram 0x200000 0 (0x1000 * 1))
                      (mkToyFw (0x200000 + 1 * PAGE_SIZE) 65 1) in
  let s := mkSlice 0x200000 0x1000 in
  ((0 <= ptr s < WORD /\ ptr s mod PAGE_SIZE = 0 /\ 1 <= p_memsz unaligned_segment) /\
   map_segment toy_allocate_pages TOY_KERNEL_MEMORY toy_ctx unaligned_segment (toy_machine 1)
   = Some ((s, self'), m')) /\
  span_pages (va_new_canonical (p_vaddr unaligned_segment)) (p_memsz unaligned_segment) = 2 /\
  ((forall i, 0 <= i < calculate_pages (p_memsz unaligned_segment) ->
      In (containing_address (va_new_canonical (p_vaddr unaligned_segment)) + i,
          ptr s / PAGE_SIZE + i, segment_flags unaligned_segment) (entries (mapper self'))) /\
   (forall e, In e (entries (mapper self')) ->
      In e (entries (mapper toy_ctx)) \/
      exists i, 0 <= i < calculate_pages (p_memsz unaligned_segment) /\
        e = (containing_address (va_new_canonical (p_vaddr unaligned_segment)) + i,
             ptr s / PAGE_SIZE + i, segment_flags unaligned_segment)) /\
   calculate_pages (p_memsz unaligned_segment)
   <= span_pages (va_new_canonical (p_vaddr unaligned_segment)) (p_memsz unaligned_segment)).
Proof.
  intros self' m' s.
  split; [split; [repeat split; vm_compute; congruence | reflexivity]|].
  split; [reflexivity|].
  apply (map_segment_aligned_frame_count ToyFw toy_allocate_pages TOY_KERNEL_MEMORY toy_ctx
           unaligned_segment (toy_machine 1) m' s self');
    [split; vm_compute; congruence | reflexivity | vm_compute; congruence | reflexivity].
Defined.

